(** * Parameter mapping and response envelopes of the security agent templates

    A shallow embedding of
    - [templates/complete-parameter-mapper.py] (module [Complete]),
    - [templates/parameter-mapper.py] (module [Draft]),
    - the response builders and the tool-name lookup of
      [templates/gateway-proxy-lambda-fixed.py] (module [GatewayProxy]),
    - [scripts/validate-action-group-response.py] (module [Validator]),
    together with the properties stated about them.

    Python values are modelled by the tagged union [value].  A Python [str]
    is a Rocq [string] holding one [ascii] per code point, so the model
    covers the code points U+0000 to U+00FF; floats are not part of the
    model. *)

From Stdlib Require Import ZArith String Ascii List Bool Lia ZifyBool DecimalString.
From stdpp Require Import gmap strings list fin_maps.

Local Open Scope string_scope.
Local Open Scope Z_scope.

(** ** Python values *)

#[local] Set Warnings "-register-all".

Inductive value : Type :=
| VNone
| VBool (b : bool)
| VInt (n : Z)
| VStr (s : string)
| VList (l : list value)
| VDict (d : list (string * value)).

(** A dict whose keys are strings, in insertion order. *)
Abbreviation pydict := (list (string * value)).

(** [d.get(k)] on an insertion-ordered dict with string keys. *)
Fixpoint dict_get {A : Type} (d : list (string * A)) (k : string) : option A :=
  match d with
  | [] => None
  | (k', v) :: d' => if String.eqb k' k then Some v else dict_get d' k
  end.

Definition dict_keys {A : Type} (d : list (string * A)) : list string :=
  map fst d.

(** [v is None] *)
Definition is_none (v : value) : bool :=
  match v with VNone => true | _ => false end.

(** [bool(v)], Python truthiness. *)
Definition truthy (v : value) : bool :=
  match v with
  | VNone => false
  | VBool b => b
  | VInt n => negb (Z.eqb n 0)
  | VStr s => negb (String.eqb s EmptyString)
  | VList l => match l with [] => false | _ => true end
  | VDict d => match d with [] => false | _ => true end
  end.

(** ** String primitives *)

Definition code (a : ascii) : N := N_of_ascii a.

(** [ch.isspace()] for code points below 256. *)
Definition is_space (a : ascii) : bool :=
  let c := code a in
  ((9 <=? c) && (c <=? 13) || (28 <=? c) && (c <=? 32)
   || (c =? 133) || (c =? 160))%N.

Fixpoint lstrip (s : string) : string :=
  match s with
  | String a s' => if is_space a then lstrip s' else s
  | EmptyString => EmptyString
  end.

(** Drops trailing whitespace: a character is kept when it is not a space
    or something that is kept follows it. *)
Fixpoint rstrip (s : string) : string :=
  match s with
  | String a s' =>
      match rstrip s' with
      | EmptyString => if is_space a then EmptyString else String a EmptyString
      | r => String a r
      end
  | EmptyString => EmptyString
  end.

(** [s.strip()] *)
Definition py_strip (s : string) : string := rstrip (lstrip s).

(** [ch.lower()] for code points below 256: A-Z and the Latin-1 capitals
    U+00C0..U+00DE except the multiplication sign U+00D7. *)
Definition lower_char (a : ascii) : ascii :=
  let c := code a in
  if ((65 <=? c) && (c <=? 90)
      || (192 <=? c) && (c <=? 222) && negb (c =? 215))%N
  then ascii_of_N (c + 32) else a.

(** [s.lower()] *)
Fixpoint py_lower (s : string) : string :=
  match s with
  | String a s' => String (lower_char a) (py_lower s')
  | EmptyString => EmptyString
  end.

Definition comma : ascii := ","%char.

(** [',' in s] *)
Fixpoint has_comma (s : string) : bool :=
  match s with
  | String a s' => Ascii.eqb a comma || has_comma s'
  | EmptyString => false
  end.

(** [s.split(',')]: the accumulator [cur] holds the segment read so far. *)
Fixpoint split_comma_go (cur : string) (s : string) : list string :=
  match s with
  | String a s' =>
      if Ascii.eqb a comma then cur :: split_comma_go EmptyString s'
      else split_comma_go (cur +:+ String a EmptyString) s'
  | EmptyString => [cur]
  end.

Definition split_comma (s : string) : list string :=
  split_comma_go EmptyString s.

(** [sep.join(l)] *)
Fixpoint join (sep : string) (l : list string) : string :=
  match l with
  | [] => EmptyString
  | [x] => x
  | x :: l' => x +:+ sep +:+ join sep l'
  end.

(** [str(n)] for an int. *)
Definition str_of_Z (n : Z) : string :=
  NilZero.string_of_int (Z.to_int n).

Definition hex_digit (n : N) : ascii :=
  if (n <? 10)%N then ascii_of_N (48 + n) else ascii_of_N (87 + n).

(** Two lower-case hexadecimal digits of a code point below 256. *)
Definition hex2 (a : ascii) : string :=
  let c := code a in
  String (hex_digit (c / 16)) (String (hex_digit (c mod 16)) EmptyString).

Fixpoint has_char (c : ascii) (s : string) : bool :=
  match s with
  | String a s' => Ascii.eqb a c || has_char c s'
  | EmptyString => false
  end.

(** [repr(s)] of a str: single quotes unless the text has a single quote
    and no double quote; backslash, the chosen quote, tab, newline and
    carriage return get a backslash escape, other characters that are not
    printable become [\xNN]. *)
Definition printable (a : ascii) : bool :=
  let c := code a in
  ((32 <=? c) && (c <? 127) || (161 <=? c) && negb (c =? 173))%N.

Definition repr_char (quote : ascii) (a : ascii) : string :=
  let c := code a in
  if Ascii.eqb a quote || Ascii.eqb a "\"%char
  then String "\"%char (String a EmptyString)
  else if (c =? 9)%N then "\t"
  else if (c =? 10)%N then "\n"
  else if (c =? 13)%N then "\r"
  else if printable a then String a EmptyString
  else "\x" +:+ hex2 a.

Fixpoint repr_chars (quote : ascii) (s : string) : string :=
  match s with
  | String a s' => repr_char quote a +:+ repr_chars quote s'
  | EmptyString => EmptyString
  end.

Definition dquote : ascii := ascii_of_N 34.
Definition squote : ascii := ascii_of_N 39.

Definition repr_str (s : string) : string :=
  let quote :=
    if has_char squote s && negb (has_char dquote s) then dquote else squote in
  String quote (repr_chars quote s) +:+ String quote EmptyString.

(** [repr(v)] *)
Fixpoint py_repr (v : value) : string :=
  match v with
  | VNone => "None"
  | VBool true => "True"
  | VBool false => "False"
  | VInt n => str_of_Z n
  | VStr s => repr_str s
  | VList l => "[" +:+ join ", " (map py_repr l) +:+ "]"
  | VDict d =>
      "{" +:+ join ", " (map (fun kv => repr_str (fst kv) +:+ ": " +:+ py_repr (snd kv)) d)
          +:+ "}"
  end.

(** [str(v)] *)
Definition py_str (v : value) : string :=
  match v with
  | VStr s => s
  | _ => py_repr v
  end.

(** ** [int(v)] *)

Definition is_digit (a : ascii) : bool :=
  let c := code a in ((48 <=? c) && (c <=? 57))%N.

Definition digit_val (a : ascii) : Z := Z.of_N (code a) - 48.

Definition underscore : ascii := "_"%char.

(** Decimal digits with single underscores allowed between digits;
    [prev_digit] tells whether the preceding character was a digit. *)
Fixpoint parse_digits (acc : Z) (prev_digit : bool) (s : string) : option Z :=
  match s with
  | String a s' =>
      if is_digit a then parse_digits (10 * acc + digit_val a) true s'
      else if Ascii.eqb a underscore && prev_digit then parse_digits acc false s'
      else None
  | EmptyString => if prev_digit then Some acc else None
  end.

(** [int(s)] for a str: surrounding whitespace is ignored, then an optional
    sign and the digits.  [None] stands for the ValueError.  The limit the
    interpreter puts on the number of digits is not modelled. *)
Definition int_of_str (s : string) : option Z :=
  match py_strip s with
  | String "+" s' => parse_digits 0 false s'
  | String "-" s' => Z.opp <$> parse_digits 0 false s'
  | s' => parse_digits 0 false s'
  end.

(** The exception classes raised by the built-ins used here. *)
Inductive exn : Type := ValueError | TypeError | KeyError.

Inductive result (E A : Type) : Type :=
| Ok (a : A)
| Raise (e : E).
Arguments Ok {E A} a.
Arguments Raise {E A} e.

Definition py_int (v : value) : result exn Z :=
  match v with
  | VInt n => Ok n
  | VBool b => Ok (if b then 1 else 0)
  | VStr s => match int_of_str s with Some n => Ok n | None => Raise ValueError end
  | VNone | VList _ | VDict _ => Raise TypeError
  end.

(** ** Parameter definitions shared by both mapper templates

    One entry of a tool signature: the ['type'], ['required'] and
    ['default'] fields (the ['description'] text is never read by the code
    and is left out).  An absent default and [None] are the same to
    [param_def.get('default')]. *)
Record param_def : Type := ParamDef {
  p_type : string;
  p_required : bool;
  p_default : value;
}.

Abbreviation signature := (list (string * param_def)).

(** What [map_parameters] can raise: the three [ValueError]s of the source,
    named as the specification names them, and the [TypeError] of looking
    up an unhashable parameter name in the alias dict. *)
Inductive mapper_error : Type :=
| UnknownOperation (operation_id : string)
| UnknownTool (tool_name : string)
| MissingRequiredParameter (missing_params : list string)
| UnhashableName (name : value)
| ConversionError (e : exn).

(** What the mapper prints. *)
Inductive warning : Type :=
| UnknownParameter (bedrock_name : value) (operation_id : string)
| ConversionFailed (bedrock_name : value) (expected_type : string) (e : exn).

(** The mapped arguments of a call. *)
Abbreviation arguments := (gmap string value).

(** [k in d] and [d[k] is None] on the mapped arguments. *)
Definition mapped_is_none (m : gmap string value) (k : string) : bool :=
  match m !! k with Some v => is_none v | None => false end.

(** [{k: v for k, v in m.items() if v is not None}] *)
Definition drop_none (m : gmap string value) : gmap string value :=
  filter (fun kv => is_none (snd kv) = false) m.

(** What a run of [map_parameters] shows: the warnings printed, in order,
    and the value returned or the exception raised. *)
Record run (A : Type) : Type := Run {
  printed : list warning;
  outcome : result mapper_error A;
}.
Arguments Run {A} printed outcome.
Arguments printed {A} r.
Arguments outcome {A} r.

(** [d.get(name)] where the key is an arbitrary value and the dict has str
    keys only: a list or a dict is unhashable, anything else that is not a
    str equals no key. *)
Definition get_by_value {A : Type} (d : list (string * A)) (name : value)
  : result mapper_error (option A) :=
  match name with
  | VStr s => Ok (dict_get d s)
  | VList _ | VDict _ => Raise (UnhashableName name)
  | VNone | VBool _ | VInt _ => Ok None
  end.

(** [param_def.get('type', 'string')] with [param_def] the entry of
    [gateway_name], or the empty dict. *)
Definition expected_type_of (tool_sig : signature) (gateway_name : string) : string :=
  match dict_get tool_sig gateway_name with
  | Some param_def => p_type param_def
  | None => "string"
  end.

(** The loop "Start with default values". *)
Definition seed_defaults (tool_sig : signature) : gmap string value :=
  foldl (fun mapped_params entry =>
           if is_none (p_default (snd entry)) then mapped_params
           else <[fst entry := p_default (snd entry)]> mapped_params)
        ∅ tool_sig.

(** Fold of a loop body that may raise and may print. *)
Fixpoint for_each {S X : Type}
    (body : S -> X -> result mapper_error (S * list warning))
    (st : S) (log : list warning) (xs : list X) : run S :=
  match xs with
  | [] => Run log (Ok st)
  | x :: xs' =>
      match body st x with
      | Ok (st', w) => for_each body st' (log ++ w)%list xs'
      | Raise e => Run log (Raise e)
      end
  end.

(** ** templates/complete-parameter-mapper.py *)
Module Complete.

Definition GATEWAY_TOOL_SIGNATURES : list (string * signature) :=
  [ ("SecurityMCPTools___CheckSecurityServices",
     [ ("region", ParamDef "string" false (VStr "us-east-1"));
       ("services", ParamDef "array" false
          (VList [VStr "guardduty"; VStr "inspector"; VStr "accessanalyzer";
                  VStr "securityhub"; VStr "trustedadvisor"; VStr "macie"]));
       ("account_id", ParamDef "string" false VNone);
       ("aws_profile", ParamDef "string" false (VStr "default"));
       ("store_in_context", ParamDef "boolean" false (VBool true));
       ("debug", ParamDef "boolean" false (VBool true)) ]);
    ("SecurityMCPTools___GetSecurityFindings",
     [ ("region", ParamDef "string" false (VStr "us-east-1"));
       ("service", ParamDef "string" true VNone);
       ("max_findings", ParamDef "integer" false (VInt 100));
       ("severity_filter", ParamDef "string" false VNone);
       ("aws_profile", ParamDef "string" false (VStr "default"));
       ("check_enabled", ParamDef "boolean" false (VBool true)) ]);
    ("SecurityMCPTools___CheckStorageEncryption",
     [ ("region", ParamDef "string" false (VStr "us-east-1"));
       ("services", ParamDef "array" false
          (VList [VStr "s3"; VStr "ebs"; VStr "rds"; VStr "dynamodb";
                  VStr "efs"; VStr "elasticache"]));
       ("include_unencrypted_only", ParamDef "boolean" false (VBool false));
       ("aws_profile", ParamDef "string" false (VStr "default"));
       ("store_in_context", ParamDef "boolean" false (VBool true)) ]);
    ("SecurityMCPTools___CheckNetworkSecurity",
     [ ("region", ParamDef "string" false (VStr "us-east-1"));
       ("services", ParamDef "array" false
          (VList [VStr "elb"; VStr "vpc"; VStr "apigateway"; VStr "cloudfront"]));
       ("include_non_compliant_only", ParamDef "boolean" false (VBool false));
       ("aws_profile", ParamDef "string" false (VStr "default"));
       ("store_in_context", ParamDef "boolean" false (VBool true)) ]);
    ("SecurityMCPTools___ListServicesInRegion",
     [ ("region", ParamDef "string" false (VStr "us-east-1"));
       ("aws_profile", ParamDef "string" false (VStr "default"));
       ("store_in_context", ParamDef "boolean" false (VBool true)) ]);
    ("SecurityMCPTools___GetStoredSecurityContext",
     [ ("region", ParamDef "string" false (VStr "us-east-1"));
       ("detailed", ParamDef "boolean" false (VBool false)) ]) ].

Definition OPERATION_TO_TOOL_MAP : list (string * string) :=
  [ ("checkSecurityStatus", "SecurityMCPTools___CheckSecurityServices");
    ("getSecurityFindings", "SecurityMCPTools___GetSecurityFindings");
    ("checkStorageEncryption", "SecurityMCPTools___CheckStorageEncryption");
    ("checkNetworkSecurity", "SecurityMCPTools___CheckNetworkSecurity");
    ("listServicesInRegion", "SecurityMCPTools___ListServicesInRegion");
    ("getStoredContext", "SecurityMCPTools___GetStoredSecurityContext") ].

Definition PARAMETER_NAME_MAP : list (string * list (string * string)) :=
  [ ("SecurityMCPTools___CheckSecurityServices",
     [ ("region", "region");
       ("service", "services");
       ("services", "services");
       ("accountId", "account_id");
       ("account_id", "account_id");
       ("awsProfile", "aws_profile");
       ("aws_profile", "aws_profile");
       ("storeInContext", "store_in_context");
       ("store_in_context", "store_in_context");
       ("debug", "debug") ]);
    ("SecurityMCPTools___GetSecurityFindings",
     [ ("region", "region");
       ("service", "service");
       ("maxFindings", "max_findings");
       ("max_findings", "max_findings");
       ("severityFilter", "severity_filter");
       ("severity_filter", "severity_filter");
       ("severity", "severity_filter");
       ("awsProfile", "aws_profile");
       ("aws_profile", "aws_profile");
       ("checkEnabled", "check_enabled");
       ("check_enabled", "check_enabled") ]);
    ("SecurityMCPTools___CheckStorageEncryption",
     [ ("region", "region");
       ("service", "services");
       ("services", "services");
       ("includeUnencryptedOnly", "include_unencrypted_only");
       ("include_unencrypted_only", "include_unencrypted_only");
       ("unencryptedOnly", "include_unencrypted_only");
       ("awsProfile", "aws_profile");
       ("aws_profile", "aws_profile");
       ("storeInContext", "store_in_context");
       ("store_in_context", "store_in_context") ]);
    ("SecurityMCPTools___CheckNetworkSecurity",
     [ ("region", "region");
       ("service", "services");
       ("services", "services");
       ("includeNonCompliantOnly", "include_non_compliant_only");
       ("include_non_compliant_only", "include_non_compliant_only");
       ("nonCompliantOnly", "include_non_compliant_only");
       ("awsProfile", "aws_profile");
       ("aws_profile", "aws_profile");
       ("storeInContext", "store_in_context");
       ("store_in_context", "store_in_context") ]);
    ("SecurityMCPTools___ListServicesInRegion",
     [ ("region", "region");
       ("awsProfile", "aws_profile");
       ("aws_profile", "aws_profile");
       ("storeInContext", "store_in_context");
       ("store_in_context", "store_in_context") ]);
    ("SecurityMCPTools___GetStoredSecurityContext",
     [ ("region", "region");
       ("detailed", "detailed") ]) ].

(** The strings a boolean parameter reads as true. *)
Definition true_words : list string := ["true"; "1"; "yes"; "on"].

(** [x in l] for strs. *)
Definition str_in (x : string) (l : list string) : bool :=
  existsb (String.eqb x) l.

(** The body of the [try] block: the value stored under the gateway name,
    or the exception raised. *)
Definition convert (expected_type : string) (bedrock_value : value)
  : result exn value :=
  if String.eqb expected_type "array" then
    match bedrock_value with
    | VList _ => Ok bedrock_value
    | VStr s =>
        if has_comma s
        then Ok (VList (map (fun v => VStr (py_strip v)) (split_comma s)))
        else Ok (VList [bedrock_value])
    | _ => Ok (VList [VStr (py_str bedrock_value)])
    end
  else if String.eqb expected_type "integer" then
    match py_int bedrock_value with
    | Ok n => Ok (VInt n)
    | Raise e => Raise e
    end
  else if String.eqb expected_type "boolean" then
    match bedrock_value with
    | VBool _ => Ok bedrock_value
    | VStr s => Ok (VBool (str_in (py_lower s) true_words))
    | _ => Ok (VBool (truthy bedrock_value))
    end
  else Ok (VStr (py_str bedrock_value)).

(** One round of the loop "Map provided parameters". *)
Definition map_one (operation_id : string) (tool_sig : signature)
    (param_map : list (string * string))
    (mapped_params : gmap string value) (bedrock_param : pydict)
  : result mapper_error (gmap string value * list warning) :=
  let bedrock_name := default VNone (dict_get bedrock_param "name") in
  let bedrock_value := default VNone (dict_get bedrock_param "value") in
  if negb (truthy bedrock_name) || is_none bedrock_value
  then Ok (mapped_params, [])
  else
    match get_by_value param_map bedrock_name with
    | Raise e => Raise e
    | Ok gateway_name =>
        match gateway_name with
        | None | Some EmptyString =>
            Ok (mapped_params, [UnknownParameter bedrock_name operation_id])
        | Some gateway_name =>
            let expected_type := expected_type_of tool_sig gateway_name in
            match convert expected_type bedrock_value with
            | Ok v => Ok (<[gateway_name := v]> mapped_params, [])
            | Raise e =>
                Ok (mapped_params,
                    [ConversionFailed bedrock_name expected_type e])
            end
        end
    end.

(** The loop "Validate required parameters". *)
Definition missing_required (tool_sig : signature)
    (mapped_params : gmap string value) : list string :=
  map fst
    (List.filter
       (fun entry =>
          p_required (snd entry)
          && (negb (bool_decide (is_Some (mapped_params !! fst entry)))
              || mapped_is_none mapped_params (fst entry)))
       tool_sig).

(** [PARAMETER_NAME_MAP.get(tool_name, {})] *)
Definition param_map_of (tool_name : string) : list (string * string) :=
  default [] (dict_get PARAMETER_NAME_MAP tool_name).

Definition map_parameters (operation_id : string)
    (bedrock_parameters : list pydict) : run (string * gmap string value) :=
  match dict_get OPERATION_TO_TOOL_MAP operation_id with
  | None | Some EmptyString => Run [] (Raise (UnknownOperation operation_id))
  | Some tool_name =>
      match dict_get GATEWAY_TOOL_SIGNATURES tool_name with
      | None => Run [] (Raise (UnknownTool tool_name))
      | Some tool_sig =>
          let param_map := param_map_of tool_name in
          let r := for_each (map_one operation_id tool_sig param_map)
                     (seed_defaults tool_sig) [] bedrock_parameters in
          match outcome r with
          | Raise e => Run (printed r) (Raise e)
          | Ok mapped_params =>
              match missing_required tool_sig mapped_params with
              | [] => Run (printed r) (Ok (tool_name, drop_none mapped_params))
              | missing_params =>
                  Run (printed r) (Raise (MissingRequiredParameter missing_params))
              end
          end
      end
  end.

(** The text of the [ValueError]s. *)
Definition error_message (e : mapper_error) : option string :=
  match e with
  | UnknownOperation operation_id =>
      Some ("Unknown operation: " +:+ operation_id +:+ ". Valid operations: "
            +:+ py_repr (VList (map VStr (dict_keys OPERATION_TO_TOOL_MAP))))
  | UnknownTool tool_name => Some ("Unknown tool: " +:+ tool_name)
  | MissingRequiredParameter missing_params =>
      Some ("Missing required parameters: " +:+ join ", " missing_params)
  | _ => None
  end.

(** An inbound parameter [{'name': n, 'value': v}]. *)
Definition param (n : string) (v : value) : pydict :=
  [("name", VStr n); ("value", v)].

End Complete.

(** ** templates/parameter-mapper.py

    The earlier draft of the mapper.  Its mapped arguments are keyed by
    whatever the inbound name is, so here an inbound parameter is the pair
    of its ['name'], a str, and its ['value'] ([VNone] when absent). *)
Module Draft.

Definition GATEWAY_TOOL_SIGNATURES : list (string * signature) :=
  [ ("SecurityMCPTools___CheckSecurityServices",
     [ ("region", ParamDef "string" true (VStr "us-east-1"));
       ("service_names", ParamDef "array" false (VList [])) ]);
    ("SecurityMCPTools___GetSecurityFindings",
     [ ("region", ParamDef "string" true (VStr "us-east-1"));
       ("severity", ParamDef "string" false (VStr "ALL"));
       ("service", ParamDef "string" false VNone);
       ("limit", ParamDef "integer" false (VInt 100)) ]);
    ("SecurityMCPTools___CheckStorageEncryption",
     [ ("region", ParamDef "string" true (VStr "us-east-1"));
       ("service_type", ParamDef "string" false (VStr "ALL")) ]) ].

Definition OPERATION_TO_TOOL_MAP : list (string * string) :=
  [ ("checkSecurityStatus", "SecurityMCPTools___CheckSecurityServices");
    ("getSecurityFindings", "SecurityMCPTools___GetSecurityFindings");
    ("checkStorageEncryption", "SecurityMCPTools___CheckStorageEncryption") ].

Definition PARAMETER_NAME_MAP : list (string * list (string * string)) :=
  [ ("SecurityMCPTools___CheckSecurityServices",
     [ ("region", "region");
       ("service", "service_names");
       ("services", "service_names") ]);
    ("SecurityMCPTools___GetSecurityFindings",
     [ ("region", "region");
       ("severity", "severity");
       ("service", "service");
       ("limit", "limit") ]);
    ("SecurityMCPTools___CheckStorageEncryption",
     [ ("region", "region");
       ("serviceType", "service_type");
       ("service_type", "service_type") ]) ].

Definition true_words : list string := ["true"; "1"; "yes"].

(** The conversion of one inbound value; nothing catches what it raises. *)
Definition convert (expected_type : string) (bedrock_value : value)
  : result exn value :=
  if String.eqb expected_type "array" then
    match bedrock_value with
    | VList _ => Ok bedrock_value
    | _ => Ok (VList [bedrock_value])
    end
  else if String.eqb expected_type "integer" then
    match py_int bedrock_value with
    | Ok n => Ok (VInt n)
    | Raise e => Raise e
    end
  else if String.eqb expected_type "boolean" then
    match bedrock_value with
    | VStr s => Ok (VBool (Complete.str_in (py_lower s) true_words))
    | _ => Ok (VBool (truthy bedrock_value))
    end
  else Ok (VStr (py_str bedrock_value)).

Definition map_one (tool_sig : signature) (param_map : list (string * string))
    (mapped_params : gmap string value) (bedrock_param : string * value)
  : result mapper_error (gmap string value * list warning) :=
  let bedrock_name := fst bedrock_param in
  let bedrock_value := snd bedrock_param in
  let gateway_name := default bedrock_name (dict_get param_map bedrock_name) in
  let expected_type := expected_type_of tool_sig gateway_name in
  match convert expected_type bedrock_value with
  | Ok v => Ok (<[gateway_name := v]> mapped_params, [])
  | Raise e => Raise (ConversionError e)
  end.

(** The first required parameter that is not a key of the mapped
    arguments, if any. *)
Definition first_missing (tool_sig : signature)
    (mapped_params : gmap string value) : option string :=
  head (map fst
          (List.filter
             (fun entry =>
                p_required (snd entry)
                && negb (bool_decide (is_Some (mapped_params !! fst entry))))
             tool_sig)).

Definition map_parameters (operation_id : string)
    (bedrock_parameters : list (string * value))
  : result mapper_error (string * gmap string value) :=
  match dict_get OPERATION_TO_TOOL_MAP operation_id with
  | None | Some EmptyString => Raise (UnknownOperation operation_id)
  | Some tool_name =>
      match dict_get GATEWAY_TOOL_SIGNATURES tool_name with
      | None => Raise (UnknownTool tool_name)
      | Some tool_sig =>
          let param_map := default [] (dict_get PARAMETER_NAME_MAP tool_name) in
          match outcome (for_each (map_one tool_sig param_map)
                           (seed_defaults tool_sig) [] bedrock_parameters) with
          | Raise e => Raise e
          | Ok mapped_params =>
              match first_missing tool_sig mapped_params with
              | Some param_name => Raise (MissingRequiredParameter [param_name])
              | None => Ok (tool_name, mapped_params)
              end
          end
      end
  end.

End Draft.

(** ** [json.dumps] with its default settings *)

Definition backslash : ascii := "\"%char.

(** One character of a JSON string: the short escapes, and [\u00xx] for
    anything else outside the printable ASCII range. *)
Definition json_escape_char (a : ascii) : string :=
  let c := code a in
  if Ascii.eqb a dquote || Ascii.eqb a backslash
  then String backslash (String a EmptyString)
  else if (c =? 10)%N then "\n"
  else if (c =? 13)%N then "\r"
  else if (c =? 9)%N then "\t"
  else if (c =? 8)%N then "\b"
  else if (c =? 12)%N then "\f"
  else if ((32 <=? c) && (c <=? 126))%N then String a EmptyString
  else "\u00" +:+ hex2 a.

Fixpoint json_escape (s : string) : string :=
  match s with
  | String a s' => json_escape_char a +:+ json_escape s'
  | EmptyString => EmptyString
  end.

Definition json_string (s : string) : string :=
  String dquote (json_escape s) +:+ String dquote EmptyString.

Fixpoint json_dumps (v : value) : string :=
  match v with
  | VNone => "null"
  | VBool true => "true"
  | VBool false => "false"
  | VInt n => str_of_Z n
  | VStr s => json_string s
  | VList l => "[" +:+ join ", " (map json_dumps l) +:+ "]"
  | VDict d =>
      "{" +:+ join ", "
                (map (fun kv => json_string (fst kv) +:+ ": " +:+ json_dumps (snd kv)) d)
          +:+ "}"
  end.

(** ** templates/gateway-proxy-lambda-fixed.py *)
Module GatewayProxy.

(** [d.get(k, '')] *)
Definition get_or_empty (d : pydict) (k : string) : value :=
  default (VStr EmptyString) (dict_get d k).

Definition envelope (event : pydict) (status : Z) (body : value) : value :=
  VDict
    [ ("messageVersion", VStr "1.0");
      ("response",
       VDict
         [ ("actionGroup", get_or_empty event "actionGroup");
           ("apiPath", get_or_empty event "apiPath");
           ("httpMethod", get_or_empty event "httpMethod");
           ("httpStatusCode", VInt status);
           ("responseBody",
            VDict [ ("application/json", VDict [ ("body", body) ]) ]) ]) ].

Definition success_response (event : pydict) (data : value) : value :=
  envelope event 200 (VStr (json_dumps data)).

Definition error_response (event : pydict) (error_msg : value) : value :=
  envelope event 500 (VStr (json_dumps (VDict [("error", error_msg)]))).

(** The dict [tool_name_map] of [lambda_handler]. *)
Definition tool_name_map : list (string * string) :=
  [ ("get_security_status", "SecurityMCPTools___CheckSecurityServices");
    ("get_security_findings", "SecurityMCPTools___GetSecurityFindings");
    ("check_storage_encryption", "SecurityMCPTools___CheckStorageEncryption");
    ("list_services_in_region", "SecurityMCPTools___ListServicesInRegion");
    ("check_network_security", "SecurityMCPTools___CheckNetworkSecurity") ].

(** [tool_name_map.get(operation_id, f'SecurityMCPTools___{operation_id}')] *)
Definition mcp_tool_name (operation_id : string) : string :=
  default ("SecurityMCPTools___" +:+ operation_id)
          (dict_get tool_name_map operation_id).

End GatewayProxy.

(** ** scripts/validate-action-group-response.py *)

(** Sequencing of computations that may raise. *)
Definition and_then {E A B : Type} (r : result E A) (k : A -> result E B)
  : result E B :=
  match r with Ok a => k a | Raise e => Raise e end.

Notation "'let!' x ':=' r 'in' k" := (and_then r (fun x => k))
  (at level 10, x name, r at level 100, k at level 200).

(** [sub in s] for strs. *)
Fixpoint has_substring (sub s : string) : bool :=
  String.prefix sub s
  || match s with
     | String _ s' => has_substring sub s'
     | EmptyString => false
     end.

(** [v == k] for a str [k]. *)
Definition eq_str (v : value) (k : string) : bool :=
  match v with VStr s => String.eqb s k | _ => false end.

(** [k in v] for a str [k]: key of a dict, substring of a str, element of
    a list; the other values are not iterable. *)
Definition py_in (k : string) (v : value) : result exn bool :=
  match v with
  | VDict d => Ok (bool_decide (is_Some (dict_get d k)))
  | VStr s => Ok (has_substring k s)
  | VList l => Ok (existsb (fun x => eq_str x k) l)
  | VNone | VBool _ | VInt _ => Raise TypeError
  end.

(** [v[k]] for a str [k]: only a dict can be indexed by a str. *)
Definition py_getitem (v : value) (k : string) : result exn value :=
  match v with
  | VDict d => match dict_get d k with Some x => Ok x | None => Raise KeyError end
  | _ => Raise TypeError
  end.

Module Validator.

(** The messages [validate_response] can append, one constructor each. *)
Inductive verror : Type :=
| NotADictionary
| MissingMessageVersion
| BadMessageVersion (got : value)
| MissingResponse
| MissingResponseField (field : string)
| StatusNotInteger (got : value)
| UnusualStatus (got : value)
| ResponseBodyNotDict
| NoApplicationJson
| NoBodyKey
| BodyNotString (got : value)
| BodyFixHint
| BodyNotValidJson.

Definition required : list string :=
  ["actionGroup"; "apiPath"; "httpMethod"; "httpStatusCode"; "responseBody"].

(** [isinstance(v, int)]; bool is a subclass of int. *)
Definition is_int (v : value) : bool :=
  match v with VInt _ | VBool _ => true | _ => false end.

(** [v in [200, 400, 404, 500]] for an int or bool. *)
Definition usual_status (v : value) : bool :=
  match v with
  | VInt n => existsb (Z.eqb n) [200; 400; 404; 500]
  | _ => false
  end.

Section validate.

(** Whether [json.loads] accepts a text; the JSON parser is library code. *)
Variable json_loads_ok : string -> bool.

(** The loop over the required fields. *)
Fixpoint check_required (resp : value) (fields : list string)
  : result exn (list verror) :=
  match fields with
  | [] => Ok []
  | field :: fields' =>
      let! present := py_in field resp in
      let! rest := check_required resp fields' in
      Ok ((if present then [] else [MissingResponseField field]) ++ rest)%list
  end.

Definition check_status (resp : value) : result exn (list verror) :=
  let! present := py_in "httpStatusCode" resp in
  if present then
    let! code := py_getitem resp "httpStatusCode" in
    if negb (is_int code) then Ok [StatusNotInteger code]
    else if negb (usual_status code) then Ok [UnusualStatus code]
    else Ok []
  else Ok [].

Definition check_body (resp : value) : result exn (list verror) :=
  let! present := py_in "responseBody" resp in
  if present then
    let! response_body := py_getitem resp "responseBody" in
    match response_body with
    | VDict rb =>
        match dict_get rb "application/json" with
        | None => Ok [NoApplicationJson]
        | Some json_body =>
            let! has_body := py_in "body" json_body in
            if has_body then
              let! body := py_getitem json_body "body" in
              match body with
              | VStr text =>
                  if json_loads_ok text then Ok [] else Ok [BodyNotValidJson]
              | _ => Ok [BodyNotString body; BodyFixHint]
              end
            else Ok [NoBodyKey]
        end
    | _ => Ok [ResponseBodyNotDict]
    end
  else Ok [].

Definition validate_response (response : value) : result exn (list verror) :=
  match response with
  | VDict top =>
      let version_errors :=
        match dict_get top "messageVersion" with
        | None => [MissingMessageVersion]
        | Some v => if eq_str v "1.0" then [] else [BadMessageVersion v]
        end in
      match dict_get top "response" with
      | None => Ok (version_errors ++ [MissingResponse])%list
      | Some resp =>
          let! e1 := check_required resp required in
          let! e2 := check_status resp in
          let! e3 := check_body resp in
          Ok (version_errors ++ e1 ++ e2 ++ e3)%list
      end
  | _ => Ok [NotADictionary]
  end.

End validate.

End Validator.

(** ** Notions used to state the properties *)

(** The body field of an envelope:
    [env['response']['responseBody']['application/json']['body']]. *)
Definition body_of (env : value) : result exn value :=
  let! response := py_getitem env "response" in
  let! response_body := py_getitem response "responseBody" in
  let! json_body := py_getitem response_body "application/json" in
  py_getitem json_body "body".

(** The required parameters of a signature whose default is absent or
    null, in the order of the signature. *)
Definition required_without_default (tool_sig : signature) : list string :=
  map fst
    (List.filter (fun entry => p_required (snd entry) && is_none (p_default (snd entry)))
       tool_sig).

Definition is_ok {E A : Type} (r : result E A) : bool :=
  match r with Ok _ => true | Raise _ => false end.

(** Two characters that are equal or are the two cases of one of the
    letters a-z. *)
Definition same_char_ignoring_case (a b : ascii) : Prop :=
  a = b
  \/ ((65 <= code a <= 90)%N /\ code b = (code a + 32)%N)
  \/ ((65 <= code b <= 90)%N /\ code a = (code b + 32)%N).

(** Two strs that are equal up to the case of the letters a-z. *)
Fixpoint same_ignoring_case (s t : string) : Prop :=
  match s, t with
  | EmptyString, EmptyString => True
  | String a s', String b t' =>
      same_char_ignoring_case a b /\ same_ignoring_case s' t'
  | _, _ => False
  end.

(** A str without leading or trailing whitespace. *)
Definition starts_with_space (s : string) : bool :=
  match s with String a _ => is_space a | EmptyString => false end.

Fixpoint ends_with_space (s : string) : bool :=
  match s with
  | String a EmptyString => is_space a
  | String _ s' => ends_with_space s'
  | EmptyString => false
  end.

Fixpoint all_space (s : string) : bool :=
  match s with
  | String a s' => is_space a && all_space s'
  | EmptyString => true
  end.

(** Whether a str is not empty. *)
Definition nonempty (s : string) : bool := negb (String.eqb s EmptyString).

(** An alias dict maps nothing from or to the empty str, and every name it
    maps to, like every parameter name of the signature, is one of its own
    keys. *)
Definition aliases_closed (tool_sig : signature) (param_map : list (string * string))
  : bool :=
  forallb (fun entry => nonempty (fst entry) && nonempty (snd entry)) param_map
  && forallb (fun k => bool_decide (is_Some (dict_get param_map k)))
       (dict_keys tool_sig ++ map snd param_map)%list.

(** A character of a word that [lower] leaves alone: a-z or 0-9. *)
Definition plain_char (c : ascii) : bool :=
  ((97 <=? code c) && (code c <=? 122) || (48 <=? code c) && (code c <=? 57))%N.

Fixpoint plain_word (w : string) : bool :=
  match w with
  | String c w' => plain_char c && plain_word w'
  | EmptyString => true
  end.

(** [y] is [x] without its leading and trailing whitespace. *)
Definition is_trim_of (x y : string) : Prop :=
  starts_with_space y = false /\ ends_with_space y = false
  /\ exists pre post,
       x = pre +:+ y +:+ post /\ all_space pre = true /\ all_space post = true.

(** * Properties *)

(** ** Dict lookups *)

Lemma dict_get_In {A : Type} (d : list (string * A)) (k : string) (v : A) :
  dict_get d k = Some v -> In (k, v) d.
Proof.
  induction d as [|[k' v'] d IH]; simpl; [discriminate|].
  destruct (String.eqb_spec k' k) as [->|Hne].
  - intros [= ->]. now left.
  - intros H. right. now apply IH.
Qed.

Lemma dict_get_None_keys {A : Type} (d : list (string * A)) (k : string) :
  dict_get d k = None <-> ~ In k (dict_keys d).
Proof.
  induction d as [|[k' v'] d IH]; simpl.
  - tauto.
  - destruct (String.eqb_spec k' k) as [->|Hne].
    + split; [discriminate | intros H; exfalso; apply H; now left].
    + rewrite IH. tauto.
Qed.

(** ** The loop combinator *)

Section for_each_facts.

Context {S X : Type} (body : S -> X -> result mapper_error (S * list warning)).

(** What a loop returns or raises does not depend on what was printed
    before it. *)
Lemma for_each_outcome_log (xs : list X) (st : S) (log log' : list warning) :
  outcome (for_each body st log xs) = outcome (for_each body st log' xs).
Proof.
  revert st log log'.
  induction xs as [|x xs IH]; intros st log log'; simpl; [reflexivity|].
  destruct (body st x) as [[st' w]|e]; [apply IH | reflexivity].
Qed.

(** A round that changes nothing and prints nothing can be removed. *)
Lemma for_each_skip_silent (x : X) (l1 l2 : list X) (st : S) (log : list warning) :
  (forall s, body s x = Ok (s, [])) ->
  for_each body st log (l1 ++ x :: l2) = for_each body st log (l1 ++ l2).
Proof.
  intros Hx. revert st log.
  induction l1 as [|y l1 IH]; intros st log; simpl.
  - rewrite Hx. now rewrite app_nil_r.
  - destruct (body st y) as [[st' w]|e]; [apply IH | reflexivity].
Qed.

(** A round that changes nothing can be removed without changing what the
    loop returns or raises. *)
Lemma for_each_skip (x : X) (w : list warning) (l1 l2 : list X) (st : S)
    (log : list warning) :
  (forall s, body s x = Ok (s, w)) ->
  outcome (for_each body st log (l1 ++ x :: l2))
  = outcome (for_each body st log (l1 ++ l2)).
Proof.
  intros Hx. revert st log.
  induction l1 as [|y l1 IH]; intros st log; simpl.
  - rewrite Hx. apply for_each_outcome_log.
  - destruct (body st y) as [[st' w']|e]; [apply IH | reflexivity].
Qed.



(** An invariant of the state kept by every round holds at the end. *)
Lemma for_each_invariant (P : S -> Prop) (xs : list X) (st : S)
    (log : list warning) (st' : S) :
  (forall s x s' w, P s -> body s x = Ok (s', w) -> P s') ->
  P st ->
  outcome (for_each body st log xs) = Ok st' ->
  P st'.
Proof.
  intros Hstep. revert st log.
  induction xs as [|x xs IH]; intros st log Hst; simpl.
  - now intros [= <-].
  - destruct (body st x) as [[s1 w]|e] eqn:Hb; [|discriminate].
    apply IH. eapply Hstep; eauto.
Qed.

(** A loop raises only what one of its rounds raises. *)
Lemma for_each_raises (xs : list X) (st : S) (log : list warning)
    (e : mapper_error) :
  outcome (for_each body st log xs) = Raise e ->
  exists s x, body s x = Raise e.
Proof.
  revert st log.
  induction xs as [|x xs IH]; intros st log; simpl; [discriminate|].
  destruct (body st x) as [[s1 w]|e'] eqn:Hb.
  - apply IH.
  - simpl. intros [= ->]. eauto.
Qed.

End for_each_facts.

(** ** The complete mapper: structure of a call *)

Import Complete.

(** What [map_parameters] returns or raises, stage by stage. *)
Lemma outcome_map_parameters (operation_id : string) (ps : list pydict) :
  outcome (map_parameters operation_id ps)
  = match dict_get OPERATION_TO_TOOL_MAP operation_id with
    | None | Some EmptyString => Raise (UnknownOperation operation_id)
    | Some tool_name =>
        match dict_get GATEWAY_TOOL_SIGNATURES tool_name with
        | None => Raise (UnknownTool tool_name)
        | Some tool_sig =>
            match outcome (for_each (map_one operation_id tool_sig (param_map_of tool_name))
                             (seed_defaults tool_sig) [] ps) with
            | Raise e => Raise e
            | Ok mapped_params =>
                match missing_required tool_sig mapped_params with
                | [] => Ok (tool_name, drop_none mapped_params)
                | missing_params => Raise (MissingRequiredParameter missing_params)
                end
            end
        end
    end.
Proof.
  unfold map_parameters.
  destruct (dict_get OPERATION_TO_TOOL_MAP operation_id) as [[|a t]|]; try reflexivity.
  destruct (dict_get GATEWAY_TOOL_SIGNATURES (String a t)) as [tool_sig|]; try reflexivity.
  cbv zeta.
  destruct (outcome (for_each _ _ _ _)) as [m|e]; try reflexivity.
  now destruct (missing_required tool_sig m).
Qed.

(** The operation ids of the map, one by one. *)
Lemma operation_cases (operation_id tool_name : string) :
  dict_get OPERATION_TO_TOOL_MAP operation_id = Some tool_name ->
  In (operation_id, tool_name) OPERATION_TO_TOOL_MAP.
Proof. apply dict_get_In. Qed.

(** Every tool named by the operation map has a signature. *)
Lemma operation_tool_has_signature (operation_id tool_name : string) :
  dict_get OPERATION_TO_TOOL_MAP operation_id = Some tool_name ->
  tool_name <> EmptyString
  /\ exists tool_sig, dict_get GATEWAY_TOOL_SIGNATURES tool_name = Some tool_sig.
Proof.
  intros H. apply operation_cases in H. simpl in H.
  repeat destruct H as [H|H]; try contradiction;
    injection H as <- <-; (split; [discriminate | eexists; reflexivity]).
Qed.

(** A round raises nothing but the TypeError of an unhashable name. *)
Lemma map_one_raises (operation_id : string) (tool_sig : signature)
    (param_map : list (string * string)) (m : gmap string value)
    (bp : pydict) (e : mapper_error) :
  map_one operation_id tool_sig param_map m bp = Raise e ->
  exists name, e = UnhashableName name.
Proof.
  unfold map_one.
  destruct (negb _ || _); [discriminate|].
  destruct (default VNone (dict_get bp "name")) as [| | |s|l|d]; simpl;
    try discriminate;
    try (intros [= <-]; eauto).
  destruct (dict_get param_map s) as [[|a g]|]; try discriminate.
  destruct (convert _ _); discriminate.
Qed.

(** Removing a round that changes nothing does not change what the call
    returns or raises. *)
Lemma map_parameters_skip (operation_id tool_name : string) (bp : pydict)
    (w : list warning) (l1 l2 : list pydict) :
  dict_get OPERATION_TO_TOOL_MAP operation_id = Some tool_name ->
  (forall tool_sig m,
      dict_get GATEWAY_TOOL_SIGNATURES tool_name = Some tool_sig ->
      map_one operation_id tool_sig (param_map_of tool_name) m bp = Ok (m, w)) ->
  outcome (map_parameters operation_id (l1 ++ bp :: l2))
  = outcome (map_parameters operation_id (l1 ++ l2)).
Proof.
  intros Hop Hskip. rewrite !outcome_map_parameters, Hop.
  destruct tool_name as [|a t]; [reflexivity|].
  destruct (dict_get GATEWAY_TOOL_SIGNATURES (String a t)) as [tool_sig|] eqn:Hsig;
    [|reflexivity].
  rewrite (for_each_skip _ bp w); [reflexivity|].
  intros s. now apply Hskip.
Qed.


(** ** Response envelopes of the gateway proxy *)

Import GatewayProxy.

Lemma envelope_message_version (event : pydict) (status : Z) (body : value) :
  py_getitem (envelope event status body) "messageVersion" = Ok (VStr "1.0").
Proof. reflexivity. Qed.

Lemma envelope_body (event : pydict) (status : Z) (body : value) :
  body_of (envelope event status body) = Ok body.
Proof. reflexivity. Qed.

(** The validator finds nothing wrong in an envelope with a usual status
    and a str body, unless [json.loads] rejects the body. *)
Lemma validate_envelope (json_loads_ok : string -> bool) (event : pydict)
    (status : Z) (text : string) :
  status = 200 \/ status = 500 ->
  Validator.validate_response json_loads_ok (envelope event status (VStr text))
  = Ok (if json_loads_ok text then [] else [Validator.BodyNotValidJson]).
Proof.
  intros [-> | ->];
    unfold Validator.validate_response, envelope; simpl;
    unfold Validator.check_status, Validator.check_body; simpl;
    now destruct (json_loads_ok text).
Qed.

(** C1. Every envelope built by [success_response] and by [error_response]
    carries the message version '1.0', and its body field, under
    ['responseBody']['application/json']['body'], is a str: the text
    [json.dumps] gives for the data, respectively for [{'error': error_msg}],
    never the structured value itself.  The repository's validator accepts
    the envelope up to what [json.loads] says of that text, so it never
    reports a body that is not a str.  This holds for every event and every
    data or error-message argument. *)
Theorem response_body_is_serialized_string (event : pydict) (arg : value)
    (json_loads_ok : string -> bool) :
  let ok_env := success_response event arg in
  let err_env := error_response event arg in
  py_getitem ok_env "messageVersion" = Ok (VStr "1.0")
  /\ py_getitem err_env "messageVersion" = Ok (VStr "1.0")
  /\ body_of ok_env = Ok (VStr (json_dumps arg))
  /\ body_of err_env = Ok (VStr (json_dumps (VDict [("error", arg)])))
  /\ Validator.validate_response json_loads_ok ok_env
     = Ok (if json_loads_ok (json_dumps arg) then []
           else [Validator.BodyNotValidJson])
  /\ Validator.validate_response json_loads_ok err_env
     = Ok (if json_loads_ok (json_dumps (VDict [("error", arg)])) then []
           else [Validator.BodyNotValidJson]).
Proof.
  cbv zeta. unfold success_response, error_response.
  repeat split;
    first [ apply envelope_message_version
          | apply envelope_body
          | apply validate_envelope; auto ].
Qed.

(** What the serializer gives for an error message with a quote and a
    line break in it. *)
Example json_dumps_error :
  json_dumps (VDict [("error", VStr ("a" +:+ String dquote (String (ascii_of_N 10) "b")))])
  = "{" +:+ String dquote "error" +:+ String dquote ": " +:+ String dquote "a\"
    +:+ String dquote "\nb" +:+ String dquote "}".
Proof. reflexivity. Qed.

(** ** The end-to-end scenario *)

(** C2, as stated, fails: the scenario sends no ['service'], which the
    signature of [SecurityMCPTools___GetSecurityFindings] requires and gives
    no default, so the call raises "Missing required parameters: service"
    and returns no arguments at all. *)
Lemma findings_scenario_raises :
  let call :=
    map_parameters "getSecurityFindings"
      [ param "region" (VStr "us-west-2");
        param "severity" (VStr "HIGH");
        param "maxFindings" (VStr "50") ] in
  outcome call = Raise (MissingRequiredParameter ["service"])
  /\ outcome call
     <> Ok ("SecurityMCPTools___GetSecurityFindings",
            list_to_map
              [ ("region", VStr "us-west-2");
                ("severity_filter", VStr "HIGH");
                ("max_findings", VInt 50);
                ("aws_profile", VStr "default");
                ("check_enabled", VBool true) ]).
Proof.
  cbv zeta.
  assert (H : outcome
                (map_parameters "getSecurityFindings"
                   [ param "region" (VStr "us-west-2");
                     param "severity" (VStr "HIGH");
                     param "maxFindings" (VStr "50") ])
              = Raise (MissingRequiredParameter ["service"]))
    by (vm_compute; reflexivity).
  split; [exact H | rewrite H; discriminate].
Qed.

(** C2, amended.  The scenario raises [MissingRequiredParameter] for
    ['service']; once a ['service'] is sent as well, whatever its text, the
    call returns the tool [SecurityMCPTools___GetSecurityFindings] and
    exactly the arguments of the scenario, with the defaults of the unset
    optional fields, plus that service. *)
Theorem findings_scenario_with_service (service : string) :
  let scenario :=
    [ param "region" (VStr "us-west-2");
      param "severity" (VStr "HIGH");
      param "maxFindings" (VStr "50") ] in
  outcome (map_parameters "getSecurityFindings" scenario)
  = Raise (MissingRequiredParameter ["service"])
  /\ error_message (MissingRequiredParameter ["service"])
     = Some "Missing required parameters: service"
  /\ outcome (map_parameters "getSecurityFindings"
                (scenario ++ [param "service" (VStr service)]))
     = Ok ("SecurityMCPTools___GetSecurityFindings",
           list_to_map
             [ ("region", VStr "us-west-2");
               ("service", VStr service);
               ("severity_filter", VStr "HIGH");
               ("max_findings", VInt 50);
               ("aws_profile", VStr "default");
               ("check_enabled", VBool true) ]).
Proof.
  cbv zeta. repeat split; vm_compute; reflexivity.
Qed.

(** The test of the source file for the same operation. *)
Example findings_test_case :
  map_parameters "getSecurityFindings"
    [ param "region" (VStr "us-west-2");
      param "service" (VStr "securityhub");
      param "severity" (VStr "HIGH");
      param "maxFindings" (VStr "50") ]
  = Run []
      (Ok ("SecurityMCPTools___GetSecurityFindings",
           list_to_map
             [ ("region", VStr "us-west-2");
               ("service", VStr "securityhub");
               ("severity_filter", VStr "HIGH");
               ("max_findings", VInt 50);
               ("aws_profile", VStr "default");
               ("check_enabled", VBool true) ])).
Proof. vm_compute. reflexivity. Qed.

(** ** Empty inbound list *)

(** C3. For every operation id of the operation map, the call with no
    inbound parameter returns if and only if the signature of its tool has
    no required parameter whose default is absent or null; otherwise it
    raises [MissingRequiredParameter] with exactly those names. *)
Theorem empty_inbound_outcome (operation_id tool_name : string)
    (tool_sig : signature) :
  dict_get OPERATION_TO_TOOL_MAP operation_id = Some tool_name ->
  dict_get GATEWAY_TOOL_SIGNATURES tool_name = Some tool_sig ->
  let r := outcome (map_parameters operation_id []) in
  (is_ok r = true <-> required_without_default tool_sig = [])
  /\ (is_ok r = true -> r = Ok (tool_name, seed_defaults tool_sig))
  /\ (is_ok r = false ->
      r = Raise (MissingRequiredParameter (required_without_default tool_sig))).
Proof.
  intros Hop Hsig. apply operation_cases in Hop. simpl in Hop.
  repeat destruct Hop as [Hop|Hop]; try contradiction;
    injection Hop as <- <-;
    vm_compute in Hsig; injection Hsig as <-;
    cbv zeta; (split; [split|split]);
    vm_compute; try reflexivity; try discriminate; intros _; reflexivity.
Qed.

Lemma empty_inbound_outcome_witness :
  let tool_name := "SecurityMCPTools___GetSecurityFindings" in
  let tool_sig := default [] (dict_get GATEWAY_TOOL_SIGNATURES tool_name) in
  let r := outcome (map_parameters "getSecurityFindings" []) in
  dict_get OPERATION_TO_TOOL_MAP "getSecurityFindings" = Some tool_name
  /\ dict_get GATEWAY_TOOL_SIGNATURES tool_name = Some tool_sig
  /\ (is_ok r = true <-> required_without_default tool_sig = [])
  /\ (is_ok r = true -> r = Ok (tool_name, seed_defaults tool_sig))
  /\ (is_ok r = false ->
      r = Raise (MissingRequiredParameter (required_without_default tool_sig))).
Proof.
  cbv zeta. split; [reflexivity|]. split; [reflexivity|].
  apply (empty_inbound_outcome "getSecurityFindings"); reflexivity.
Defined.

(** In the draft mapper every required parameter has a default, so the
    empty call returns for each of its operations. *)
Remark draft_empty_inbound (operation_id tool_name : string) :
  dict_get Draft.OPERATION_TO_TOOL_MAP operation_id = Some tool_name ->
  is_ok (Draft.map_parameters operation_id []) = true.
Proof.
  intros Hop. apply dict_get_In in Hop. simpl in Hop.
  repeat destruct Hop as [Hop|Hop]; try contradiction;
    injection Hop as <- <-; vm_compute; reflexivity.
Qed.

(** ** Unknown operations and unknown tools *)

(** C5, as stated, fails on the gateway proxy: for an operation id that is
    not a key of its [tool_name_map], the handler makes up the tool name
    from the operation id and goes on. *)
Lemma gateway_proxy_synthesizes_tool_name :
  dict_get tool_name_map "bogusOperation" = None
  /\ mcp_tool_name "bogusOperation" = "SecurityMCPTools___bogusOperation".
Proof. split; reflexivity. Qed.

(** C5, amended.  In both mapper templates, for every operation id that is
    not a key of [OPERATION_TO_TOOL_MAP] and every inbound list,
    [map_parameters] raises [UnknownOperation] for that id, before any
    parameter is looked at, and returns no tool name.  The lookup of the
    gateway proxy is different: for an id that is not a key of its
    [tool_name_map] it yields ['SecurityMCPTools___'] followed by the id. *)
Theorem unknown_operation (operation_id : string) :
  (dict_get Complete.OPERATION_TO_TOOL_MAP operation_id = None ->
   forall ps, map_parameters operation_id ps
              = Run [] (Raise (UnknownOperation operation_id)))
  /\ (dict_get Draft.OPERATION_TO_TOOL_MAP operation_id = None ->
      forall ps, Draft.map_parameters operation_id ps
                 = Raise (UnknownOperation operation_id))
  /\ (dict_get tool_name_map operation_id = None ->
      mcp_tool_name operation_id = "SecurityMCPTools___" +:+ operation_id).
Proof.
  repeat split.
  - intros H ps. unfold map_parameters. now rewrite H.
  - intros H ps. unfold Draft.map_parameters. now rewrite H.
  - intros H. unfold mcp_tool_name. now rewrite H.
Qed.

Lemma unknown_operation_witness :
  dict_get Complete.OPERATION_TO_TOOL_MAP "bogusOperation" = None
  /\ dict_get Draft.OPERATION_TO_TOOL_MAP "bogusOperation" = None
  /\ dict_get tool_name_map "bogusOperation" = None
  /\ map_parameters "bogusOperation" []
     = Run [] (Raise (UnknownOperation "bogusOperation"))
  /\ Draft.map_parameters "bogusOperation" []
     = Raise (UnknownOperation "bogusOperation")
  /\ mcp_tool_name "bogusOperation" = "SecurityMCPTools___bogusOperation".
Proof.
  destruct (unknown_operation "bogusOperation") as (Hc & Hd & Hg).
  split; [reflexivity|]. split; [reflexivity|]. split; [reflexivity|].
  split; [apply Hc; reflexivity|].
  split; [apply Hd; reflexivity | apply Hg; reflexivity].
Defined.

(** The other direction: an id of the map never raises [UnknownOperation]. *)
Remark known_operation_resolves (operation_id tool_name : string)
    (ps : list pydict) (other : string) :
  dict_get OPERATION_TO_TOOL_MAP operation_id = Some tool_name ->
  outcome (map_parameters operation_id ps) <> Raise (UnknownOperation other).
Proof.
  intros Hop. rewrite outcome_map_parameters, Hop.
  destruct (operation_tool_has_signature _ _ Hop) as [Hne [tool_sig Hsig]].
  destruct tool_name as [|a t]; [congruence|]. rewrite Hsig.
  destruct (outcome (for_each _ _ _ _)) as [m|e] eqn:Hr.
  - destruct (missing_required tool_sig m); discriminate.
  - apply for_each_raises in Hr. destruct Hr as (s & x & Hr).
    apply map_one_raises in Hr. destruct Hr as [name ->]. discriminate.
Qed.

(** C9. Every tool name in [OPERATION_TO_TOOL_MAP] is a key of
    [GATEWAY_TOOL_SIGNATURES]; hence no call of [map_parameters], whatever
    the operation id and the inbound list, raises [UnknownTool]. *)
Theorem unknown_tool_unreachable :
  Forall (fun entry => is_Some (dict_get GATEWAY_TOOL_SIGNATURES (snd entry)))
         OPERATION_TO_TOOL_MAP
  /\ forall operation_id ps tool_name,
       outcome (map_parameters operation_id ps) <> Raise (UnknownTool tool_name).
Proof.
  split.
  - repeat constructor; eexists; reflexivity.
  - intros operation_id ps tool_name. rewrite outcome_map_parameters.
    destruct (dict_get OPERATION_TO_TOOL_MAP operation_id) as [t|] eqn:Hop;
      [|discriminate].
    destruct (operation_tool_has_signature _ _ Hop) as [Hne [tool_sig Hsig]].
    destruct t as [|a t]; [discriminate|]. rewrite Hsig.
    destruct (outcome (for_each _ _ _ _)) as [m|e] eqn:Hr.
    + destruct (missing_required tool_sig m); discriminate.
    + apply for_each_raises in Hr. destruct Hr as (s & x & Hr).
      apply map_one_raises in Hr. destruct Hr as [name ->]. discriminate.
Qed.

Lemma unknown_tool_unreachable_witness :
  outcome (map_parameters "getSecurityFindings" [])
  <> Raise (UnknownTool "SecurityMCPTools___GetSecurityFindings").
Proof.
  apply (proj2 unknown_tool_unreachable "getSecurityFindings" []).
Defined.

(** ** One round of the loop over the inbound parameters *)

Section map_one_facts.

Context (operation_id : string) (tool_sig : signature)
        (param_map : list (string * string)).

Implicit Types (m : gmap string value) (bp : pydict).

Let name_of bp := default VNone (dict_get bp "name").
Let value_of bp := default VNone (dict_get bp "value").

Lemma map_one_skips m bp :
  truthy (name_of bp) = false \/ is_none (value_of bp) = true ->
  map_one operation_id tool_sig param_map m bp = Ok (m, []).
Proof.
  unfold map_one, name_of, value_of. intros [H|H]; rewrite H; simpl.
  - reflexivity.
  - now rewrite orb_true_r.
Qed.

Lemma map_one_unknown m bp :
  truthy (name_of bp) = true -> is_none (value_of bp) = false ->
  get_by_value param_map (name_of bp) = Ok None ->
  map_one operation_id tool_sig param_map m bp
  = Ok (m, [UnknownParameter (name_of bp) operation_id]).
Proof.
  unfold map_one, name_of, value_of. intros -> -> ->. reflexivity.
Qed.


(** A round adds at most one key, and that key is a name the alias dict
    maps to; it never stores [None]. *)
Lemma map_one_lookup m bp m' w k v :
  map_one operation_id tool_sig param_map m bp = Ok (m', w) ->
  m' !! k = Some v ->
  m !! k = Some v
  \/ (is_none v = false /\ exists a, dict_get param_map a = Some k).
Proof.
  unfold map_one.
  destruct (negb _ || _); [intros [= <- <-]; now left|].
  destruct (default VNone (dict_get bp "name")) as [| | |s|l|d]; simpl;
    try (intros [= <- <-]; now left); try discriminate.
  destruct (dict_get param_map s) as [[|a g]|] eqn:Hs;
    try (intros [= <- <-]; now left).
  destruct (convert _ _) as [x|e] eqn:Hc; [|intros [= <- <-]; now left].
  intros [= <- <-]. rewrite lookup_insert.
  case_decide as Hk; [|now left].
  intros [= <-]. subst k. right. split; [|eauto].
  revert Hc. unfold convert.
  repeat match goal with
         | |- context [if ?b then _ else _] => destruct b
         | |- context [match ?x with _ => _ end] => destruct x
         end; intros [= <-]; reflexivity.
Qed.

End map_one_facts.

Lemma seed_defaults_lookup (tool_sig : signature) (k : string) (v : value) :
  seed_defaults tool_sig !! k = Some v ->
  In k (dict_keys tool_sig) /\ is_none v = false.
Proof.
  unfold seed_defaults.
  assert (H : forall acc : gmap string value,
             foldl (fun mapped_params entry =>
                      if is_none (p_default (snd entry)) then mapped_params
                      else <[fst entry := p_default (snd entry)]> mapped_params)
                   acc tool_sig !! k = Some v ->
             acc !! k = Some v \/ (In k (dict_keys tool_sig) /\ is_none v = false)).
  { induction tool_sig as [|[n d] sig IH]; intros acc; simpl; [now left|].
    intros Hl. apply IH in Hl. destruct Hl as [Hl|[Hin Hv]].
    - destruct (is_none (p_default d)) eqn:Hd; [now left|].
      rewrite lookup_insert in Hl. case_decide as Hk; [|now left].
      injection Hl as <-. right. split; [now left|exact Hd].
    - right. split; [now right|exact Hv]. }
  intros Hl. apply H in Hl. destruct Hl as [Hl|Hl]; [|exact Hl].
  now rewrite lookup_empty in Hl.
Qed.

(** ** The alias dicts of the complete mapper *)

Lemma complete_aliases_closed :
  forallb (fun entry => aliases_closed (snd entry) (param_map_of (fst entry)))
          GATEWAY_TOOL_SIGNATURES = true.
Proof. vm_compute. reflexivity. Qed.

Lemma aliases_closed_of (tool_name : string) (tool_sig : signature) :
  dict_get GATEWAY_TOOL_SIGNATURES tool_name = Some tool_sig ->
  aliases_closed tool_sig (param_map_of tool_name) = true.
Proof.
  intros H. apply dict_get_In in H.
  exact (proj1 (forallb_forall _ _) complete_aliases_closed _ H).
Qed.


(** Every key of the arguments a call returns is a key of the alias dict
    of the tool, and no value is [None]. *)
Lemma returned_arguments (operation_id : string) (ps : list pydict)
    (t : string) (m : gmap string value) (k : string) (v : value) :
  outcome (map_parameters operation_id ps) = Ok (t, m) ->
  m !! k = Some v ->
  is_none v = false
  /\ dict_get OPERATION_TO_TOOL_MAP operation_id = Some t
  /\ is_Some (dict_get (param_map_of t) k).
Proof.
  rewrite outcome_map_parameters.
  destruct (dict_get OPERATION_TO_TOOL_MAP operation_id) as [[|a tn]|] eqn:Hop;
    try discriminate.
  destruct (dict_get GATEWAY_TOOL_SIGNATURES (String a tn)) as [tool_sig|] eqn:Hsig;
    try discriminate.
  destruct (outcome (for_each _ _ _ _)) as [m0|e] eqn:Hr; try discriminate.
  destruct (missing_required tool_sig m0); try discriminate.
  intros [= <- <-]. unfold drop_none. intros Hk.
  apply map_lookup_filter_Some in Hk as [Hk Hv]. simpl in Hv.
  split; [exact Hv|]. split; [reflexivity|].
  pose proof (aliases_closed_of _ _ Hsig) as Hcl.
  unfold aliases_closed in Hcl. apply andb_prop in Hcl as [_ Hcl].
  pose proof (proj1 (forallb_forall _ _) Hcl) as Hall.
  clear Hv. revert k v Hk.
  apply (for_each_invariant
           (map_one operation_id tool_sig (param_map_of (String a tn)))
           (fun m1 : gmap string value =>
              forall k v, m1 !! k = Some v ->
                          is_Some (dict_get (param_map_of (String a tn)) k))
           ps (seed_defaults tool_sig) [] m0); [| |exact Hr].
  - intros s x s' w Hs Hstep k v Hk.
    destruct (map_one_lookup _ _ _ _ _ _ _ _ _ Hstep Hk) as [Hold|[_ [al Hal]]].
    + eapply Hs; eauto.
    + apply dict_get_In in Hal.
      assert (Hin : In k (dict_keys tool_sig
                          ++ map snd (param_map_of (String a tn)))%list).
      { apply in_or_app. right. apply in_map_iff.
        exists (al, k). split; [reflexivity|exact Hal]. }
      apply Hall in Hin. now apply bool_decide_eq_true in Hin.
  - intros k v Hk. apply seed_defaults_lookup in Hk as [Hin _].
    assert (Hin' : In k (dict_keys tool_sig
                         ++ map snd (param_map_of (String a tn)))%list)
      by (apply in_or_app; now left).
    apply Hall in Hin'. now apply bool_decide_eq_true in Hin'.
Qed.

(** ** Inbound parameters that are skipped *)

(** C10. An inbound parameter whose value is null or absent, or whose name
    is absent, null or empty, is skipped by the complete mapper: its round
    leaves the mapped arguments as they are (so a seeded default or an
    earlier value of its name stays) and prints nothing, the call behaves
    as the call without it, and no call returns an entry whose value is
    null. *)
Theorem null_or_unnamed_parameter_is_skipped (operation_id : string)
    (bp : pydict) (l1 l2 : list pydict) :
  truthy (default VNone (dict_get bp "name")) = false
  \/ is_none (default VNone (dict_get bp "value")) = true ->
  (forall tool_sig param_map (m : gmap string value),
      map_one operation_id tool_sig param_map m bp = Ok (m, []))
  /\ map_parameters operation_id (l1 ++ bp :: l2)
     = map_parameters operation_id (l1 ++ l2)
  /\ forall ps t (m : gmap string value) k,
       outcome (map_parameters operation_id ps) = Ok (t, m) ->
       m !! k <> Some VNone.
Proof.
  intros Hbp.
  assert (Hskip : forall tool_sig param_map (m : gmap string value),
             map_one operation_id tool_sig param_map m bp = Ok (m, []))
    by (intros; now apply map_one_skips).
  split; [exact Hskip|]. split.
  - unfold map_parameters.
    destruct (dict_get OPERATION_TO_TOOL_MAP operation_id) as [[|a t]|];
      try reflexivity.
    destruct (dict_get GATEWAY_TOOL_SIGNATURES (String a t)) as [tool_sig|];
      try reflexivity.
    cbv zeta. rewrite for_each_skip_silent; [reflexivity|].
    intros s. apply Hskip.
  - intros ps t m k Hres Hk.
    destruct (returned_arguments _ _ _ _ _ _ Hres Hk) as [Hv _].
    discriminate.
Qed.

Lemma null_or_unnamed_parameter_is_skipped_witness :
  let bp := [("name", VStr "region"); ("value", VNone)] in
  (truthy (default VNone (dict_get bp "name")) = false
   \/ is_none (default VNone (dict_get bp "value")) = true)
  /\ map_parameters "checkSecurityStatus" ([] ++ bp :: [])
     = map_parameters "checkSecurityStatus" ([] ++ []).
Proof.
  cbv zeta. split; [right; reflexivity|].
  apply (null_or_unnamed_parameter_is_skipped "checkSecurityStatus").
  right. reflexivity.
Defined.

(** A null value after a real one does not undo it, and a parameter
    without a name is not stored under any key. *)
Example null_after_value :
  outcome (map_parameters "listServicesInRegion"
             [ param "region" (VStr "eu-west-1");
               param "region" VNone;
               [("value", VStr "x")];
               param EmptyString (VStr "y") ])
  = Ok ("SecurityMCPTools___ListServicesInRegion",
        list_to_map
          [ ("region", VStr "eu-west-1");
            ("aws_profile", VStr "default");
            ("store_in_context", VBool true) ]).
Proof. vm_compute. reflexivity. Qed.

(** In the complete mapper an inbound parameter whose name has no entry in
    the alias dict of the resolved tool is dropped: the call returns or
    raises exactly what the call without that parameter does, so it
    succeeds whenever the required parameters are satisfied, and the name
    is not a key of the arguments returned. *)
Theorem unknown_parameter_is_dropped (operation_id tool_name : string)
    (bp : pydict) (n : string) (l1 l2 : list pydict) :
  dict_get OPERATION_TO_TOOL_MAP operation_id = Some tool_name ->
  dict_get bp "name" = Some (VStr n) ->
  dict_get (param_map_of tool_name) n = None ->
  outcome (map_parameters operation_id (l1 ++ bp :: l2))
  = outcome (map_parameters operation_id (l1 ++ l2))
  /\ forall t (m : gmap string value),
       outcome (map_parameters operation_id (l1 ++ bp :: l2)) = Ok (t, m) ->
       m !! n = None.
Proof.
  intros Hop Hname Hn. split.
  - destruct (negb (truthy (VStr n))
              || is_none (default VNone (dict_get bp "value"))) eqn:Hskip.
    + apply (map_parameters_skip _ tool_name bp []); [exact Hop|].
      intros tool_sig m _. apply map_one_skips. rewrite Hname. simpl.
      apply orb_prop in Hskip as [H|H]; [left|right; exact H].
      now apply negb_true_iff in H.
    + apply orb_false_elim in Hskip as [H1 H2]. apply negb_false_iff in H1.
      apply (map_parameters_skip _ tool_name bp
               [UnknownParameter (VStr n) operation_id]); [exact Hop|].
      intros tool_sig m _.
      rewrite map_one_unknown; rewrite ?Hname; simpl; auto.
      now rewrite Hn.
  - intros t m Hres. destruct (m !! n) as [v|] eqn:Hk; [|reflexivity].
    destruct (returned_arguments _ _ _ _ _ _ Hres Hk) as (_ & Hop' & Hal).
    rewrite Hop in Hop'. injection Hop' as ->.
    rewrite Hn in Hal. now destruct Hal.
Qed.

Lemma unknown_parameter_is_dropped_witness :
  let bp := param "colour" (VStr "red") in
  dict_get OPERATION_TO_TOOL_MAP "checkSecurityStatus"
  = Some "SecurityMCPTools___CheckSecurityServices"
  /\ dict_get bp "name" = Some (VStr "colour")
  /\ dict_get (param_map_of "SecurityMCPTools___CheckSecurityServices") "colour"
     = None
  /\ outcome (map_parameters "checkSecurityStatus"
                ([param "debug" (VStr "no")] ++ bp :: []))
     = outcome (map_parameters "checkSecurityStatus"
                  ([param "debug" (VStr "no")] ++ [])).
Proof.
  cbv zeta. repeat (split; [reflexivity|]).
  apply (unknown_parameter_is_dropped "checkSecurityStatus"
           "SecurityMCPTools___CheckSecurityServices" _ "colour");
    reflexivity.
Defined.

(** The warning of the source for such a parameter. *)
Example unknown_parameter_warning :
  map_parameters "getStoredContext"
    [ param "colour" (VStr "red"); param "detailed" (VStr "On") ]
  = Run [UnknownParameter (VStr "colour") "getStoredContext"]
        (Ok ("SecurityMCPTools___GetStoredSecurityContext",
             list_to_map
               [ ("region", VStr "us-east-1"); ("detailed", VBool true) ])).
Proof. vm_compute. reflexivity. Qed.

(** The draft mapper keeps such a parameter, under its own name and as a
    str. *)
Remark draft_keeps_unknown_parameter :
  Draft.map_parameters "checkStorageEncryption" [("colour", VInt 7)]
  = Ok ("SecurityMCPTools___CheckStorageEncryption",
        list_to_map
          [ ("region", VStr "us-east-1");
            ("service_type", VStr "ALL");
            ("colour", VStr "7") ]).
Proof. vm_compute. reflexivity. Qed.

(** A loop that runs to its end over two lists ran to its end over the
    first, and from there over the second. *)
Lemma for_each_app_ok {S X : Type}
    (body : S -> X -> result mapper_error (S * list warning))
    (l1 l2 : list X) (st : S) (log : list warning) (st' : S) :
  outcome (for_each body st log (l1 ++ l2)) = Ok st' ->
  exists s1 log1,
    outcome (for_each body st log l1) = Ok s1
    /\ outcome (for_each body s1 log1 l2) = Ok st'.
Proof.
  revert st log. induction l1 as [|x l1 IH]; intros st log; simpl.
  - intros H. exists st, log. split; [reflexivity|exact H].
  - destruct (body st x) as [[s2 w]|e]; [apply IH|discriminate].
Qed.

(** A round of the draft mapper that does not raise stores a value under
    the alias of the inbound name, or under the inbound name itself when
    it has no alias. *)
Lemma draft_map_one_ok (tool_sig : signature) (param_map : list (string * string))
    (m : gmap string value) (bp : string * value) (m' : gmap string value)
    (w : list warning) :
  Draft.map_one tool_sig param_map m bp = Ok (m', w) ->
  exists x, m' = <[default (fst bp) (dict_get param_map (fst bp)) := x]> m.
Proof.
  unfold Draft.map_one. destruct (Draft.convert _ _) as [x|e]; [|discriminate].
  intros [= <- <-]. eauto.
Qed.

(** C6, as stated, fails on the draft mapper of parameter-mapper.py: the
    name "colour" has no alias entry for the storage tool, and the call
    returns it as an argument. *)
Lemma draft_mapper_keeps_unknown_name :
  dict_get (default [] (dict_get Draft.PARAMETER_NAME_MAP
                          "SecurityMCPTools___CheckStorageEncryption"))
           "colour" = None
  /\ exists m : gmap string value,
       Draft.map_parameters "checkStorageEncryption" [("colour", VStr "red")]
       = Ok ("SecurityMCPTools___CheckStorageEncryption", m)
       /\ m !! "colour" = Some (VStr "red").
Proof.
  split; [reflexivity|].
  exists (list_to_map [ ("region", VStr "us-east-1");
                        ("service_type", VStr "ALL");
                        ("colour", VStr "red") ]).
  split; vm_compute; reflexivity.
Qed.

(** C6, amended.  In the complete mapper, for every operation and inbound
    list, an inbound parameter whose name has no entry in the alias dict
    of the resolved tool is dropped without failing the call: the call
    returns or raises exactly what the call without that parameter does,
    and the name is not a key of the arguments returned.  The draft mapper
    is different: it falls back to the inbound name itself, so whenever
    its call returns, a name without alias entry is a key of the arguments
    returned. *)
Theorem unknown_parameter_dropped_or_kept (operation_id n : string) :
  (forall (tool_name : string) (bp : pydict) (l1 l2 : list pydict),
      dict_get Complete.OPERATION_TO_TOOL_MAP operation_id = Some tool_name ->
      dict_get bp "name" = Some (VStr n) ->
      dict_get (param_map_of tool_name) n = None ->
      outcome (map_parameters operation_id (l1 ++ bp :: l2))
      = outcome (map_parameters operation_id (l1 ++ l2))
      /\ forall t (m : gmap string value),
           outcome (map_parameters operation_id (l1 ++ bp :: l2)) = Ok (t, m) ->
           m !! n = None)
  /\ (forall (tool_name : string) (v : value) (l1 l2 : list (string * value))
             (t : string) (m : gmap string value),
         dict_get Draft.OPERATION_TO_TOOL_MAP operation_id = Some tool_name ->
         dict_get (default [] (dict_get Draft.PARAMETER_NAME_MAP tool_name)) n
         = None ->
         Draft.map_parameters operation_id (l1 ++ (n, v) :: l2) = Ok (t, m) ->
         is_Some (m !! n)).
Proof.
  split.
  - intros tool_name bp l1 l2. apply unknown_parameter_is_dropped.
  - intros tool_name v l1 l2 t m Hop Hn. unfold Draft.map_parameters.
    rewrite Hop. destruct tool_name as [|a tn]; [discriminate|].
    destruct (dict_get Draft.GATEWAY_TOOL_SIGNATURES (String a tn))
      as [tool_sig|]; [|discriminate].
    destruct (outcome (for_each _ _ _ _)) as [m0|e] eqn:Hr; [|discriminate].
    destruct (Draft.first_missing tool_sig m0); [discriminate|].
    intros [= <- <-].
    apply for_each_app_ok in Hr as (s1 & log1 & _ & Hr).
    cbn [for_each] in Hr.
    destruct (Draft.map_one _ _ s1 (n, v)) as [[s2 w]|e] eqn:Hstep;
      [|discriminate].
    apply draft_map_one_ok in Hstep as [x ->]. cbn [fst] in Hr.
    rewrite Hn in Hr. cbn [default] in Hr.
    refine (for_each_invariant _ (fun s : gmap string value => is_Some (s !! n))
              l2 _ _ m0 _ _ Hr).
    + intros s y s' w' Hs Hy. apply draft_map_one_ok in Hy as [x' ->].
      rewrite lookup_insert. case_decide; [eauto|exact Hs].
    + rewrite lookup_insert_eq. eauto.
Qed.

Lemma unknown_parameter_dropped_or_kept_witness :
  outcome (map_parameters "checkSecurityStatus"
             ([param "debug" (VStr "no")] ++ param "colour" (VStr "red") :: []))
  = outcome (map_parameters "checkSecurityStatus"
               ([param "debug" (VStr "no")] ++ []))
  /\ is_Some
       ((list_to_map [ ("region", VStr "us-east-1");
                       ("service_type", VStr "ALL");
                       ("colour", VStr "red") ] : gmap string value)
        !! "colour").
Proof.
  destruct (unknown_parameter_dropped_or_kept "checkSecurityStatus" "colour")
    as [Hcomplete _].
  destruct (unknown_parameter_dropped_or_kept "checkStorageEncryption" "colour")
    as [_ Hdraft].
  split.
  - apply (Hcomplete "SecurityMCPTools___CheckSecurityServices"
             (param "colour" (VStr "red"))); reflexivity.
  - apply (Hdraft "SecurityMCPTools___CheckStorageEncryption" (VStr "red")
             [] [] "SecurityMCPTools___CheckStorageEncryption");
      [reflexivity | reflexivity | vm_compute; reflexivity].
Defined.

(** ** Values that cannot be converted to an integer *)




(** In the draft mapper nothing catches the error of [int]. *)
Remark draft_integer_conversion_raises :
  Draft.map_parameters "getSecurityFindings" [("limit", VStr "fifty")]
  = Raise (ConversionError ValueError).
Proof. reflexivity. Qed.

(** ** Text primitives *)

Lemma append_cons (a : ascii) (s t : string) :
  String a s +:+ t = String a (s +:+ t).
Proof. reflexivity. Qed.

Lemma append_assoc (s t u : string) : (s +:+ t) +:+ u = s +:+ (t +:+ u).
Proof.
  induction s as [|a s IH]; [reflexivity|].
  now rewrite !append_cons, IH.
Qed.

Lemma append_empty_r (s : string) : s +:+ EmptyString = s.
Proof.
  induction s as [|a s IH]; [reflexivity|].
  now rewrite append_cons, IH.
Qed.

Lemma code_inj (a b : ascii) : code a = code b -> a = b.
Proof.
  unfold code. intros H.
  rewrite <- (ascii_N_embedding a), <- (ascii_N_embedding b). now rewrite H.
Qed.

Lemma lower_char_plain (a c : ascii) :
  plain_char c = true ->
  lower_char a = c <-> same_char_ignoring_case a c.
Proof.
  unfold plain_char, lower_char, same_char_ignoring_case. intros Hc.
  pose proof (N_ascii_bounded a) as Ba. fold (code a) in Ba.
  pose proof (N_ascii_bounded c) as Bc. fold (code c) in Bc.
  destruct ((65 <=? code a)%N && (code a <=? 90)%N
            || (192 <=? code a)%N && (code a <=? 222)%N
               && negb (code a =? 215)%N) eqn:Hup.
  - split.
    + intros <-. unfold code in *.
      rewrite N_ascii_embedding in Hc by lia.
      rewrite N_ascii_embedding by lia.
      right. left. split; [lia|reflexivity].
    + intros [->|[[Ha Hac]|[Hcu Hac]]].
      * exfalso. lia.
      * apply code_inj. unfold code in *.
        rewrite N_ascii_embedding by lia. now rewrite Hac.
      * exfalso. lia.
  - split.
    + intros ->. now left.
    + intros [->|[[Ha Hac]|[Hcu Hac]]]; [reflexivity| |]; exfalso; lia.
Qed.

(** Lower-casing a str gives a plain word exactly when the str is that
    word up to the case of its letters. *)
Lemma py_lower_plain (s w : string) :
  plain_word w = true ->
  py_lower s = w <-> same_ignoring_case s w.
Proof.
  revert w. induction s as [|a s IH]; intros [|c w]; simpl; intros Hw.
  - tauto.
  - split; [discriminate|tauto].
  - split; [discriminate|tauto].
  - apply andb_prop in Hw as [Hc Hw].
    rewrite <- (lower_char_plain a c Hc), <- (IH w Hw).
    split; [intros [= -> ->]; tauto | intros [-> ->]; reflexivity].
Qed.

Lemma str_in_spec (x : string) (l : list string) :
  str_in x l = true <-> In x l.
Proof.
  unfold str_in. rewrite existsb_exists. split.
  - intros [y [Hy Heq]]. apply String.eqb_eq in Heq. now subst.
  - intros H. exists x. split; [exact H|apply String.eqb_refl].
Qed.

(** ** Boolean parameters *)

(** C7. For a parameter of declared type boolean, a str value gives True
    exactly when it is, up to the case of its letters, one of "true", "1",
    "yes", "on", and False for every other str, without any error; a value
    that is already a bool is kept; any other value gives its truthiness. *)
Theorem boolean_coercion (v : value) :
  match v with
  | VBool b => convert "boolean" v = Ok (VBool b)
  | VStr s =>
      exists b, convert "boolean" v = Ok (VBool b)
        /\ (b = true <->
            exists w, In w ["true"; "1"; "yes"; "on"] /\ same_ignoring_case s w)
  | _ => convert "boolean" v = Ok (VBool (truthy v))
  end.
Proof.
  destruct v as [| b | n | s | l | d]; try reflexivity.
  exists (str_in (py_lower s) true_words). split; [reflexivity|].
  rewrite str_in_spec. unfold true_words. split.
  - intros Hin. exists (py_lower s). split; [exact Hin|].
    apply py_lower_plain; [|reflexivity].
    simpl in Hin.
    repeat destruct Hin as [Hin|Hin]; try contradiction;
      rewrite <- Hin; reflexivity.
  - intros [w [Hin Hsame]]. simpl in Hin.
    repeat destruct Hin as [Hin|Hin]; try contradiction; subst w;
      apply py_lower_plain in Hsame; try reflexivity;
      rewrite Hsame; simpl; tauto.
Qed.

Example boolean_coercion_samples :
  map (convert "boolean")
      [ VStr "true"; VStr "TRUE"; VStr "1"; VStr "Yes"; VStr "oN";
        VStr "false"; VStr "no"; VStr "maybe"; VStr EmptyString; VStr " true";
        VBool false; VInt 0; VInt 7; VList [] ]
  = map (fun b => Ok (VBool b))
      [ true; true; true; true; true;
        false; false; false; false; false;
        false; false; true; false ].
Proof. reflexivity. Qed.

(** The draft mapper does not read "on" as true. *)
Remark draft_boolean_on :
  Draft.convert "boolean" (VStr "on") = Ok (VBool false).
Proof. reflexivity. Qed.

(** ** Splitting and trimming *)

Lemma split_comma_go_nonempty (cur s : string) : split_comma_go cur s <> [].
Proof.
  revert cur. induction s as [|a s IH]; intros cur; simpl; [discriminate|].
  destruct (Ascii.eqb a comma); [discriminate|apply IH].
Qed.

Lemma join_cons (sep x : string) (l : list string) :
  l <> [] -> join sep (x :: l) = x +:+ sep +:+ join sep l.
Proof. destruct l; [contradiction|reflexivity]. Qed.

(** Joining the segments with commas gives the text back. *)
Lemma join_split_comma_go (cur s : string) :
  join "," (split_comma_go cur s) = cur +:+ s.
Proof.
  revert cur. induction s as [|a s IH]; intros cur; simpl;
    [now rewrite append_empty_r|].
  destruct (Ascii.eqb_spec a comma) as [->|Hne].
  - rewrite join_cons by apply split_comma_go_nonempty.
    rewrite IH. reflexivity.
  - rewrite IH, append_assoc. reflexivity.
Qed.

Lemma has_comma_append (s t : string) :
  has_comma (s +:+ t) = has_comma s || has_comma t.
Proof.
  induction s as [|a s IH]; [reflexivity|].
  rewrite append_cons. simpl. now rewrite IH, orb_assoc.
Qed.

(** No segment holds a comma. *)
Lemma split_comma_go_segments (cur s : string) :
  has_comma cur = false ->
  Forall (fun x => has_comma x = false) (split_comma_go cur s).
Proof.
  revert cur. induction s as [|a s IH]; intros cur Hcur; simpl.
  - now constructor.
  - destruct (Ascii.eqb a comma) eqn:Ha.
    + constructor; [exact Hcur|]. now apply IH.
    + apply IH. rewrite has_comma_append, Hcur. simpl. now rewrite Ha.
Qed.

Lemma lstrip_spec (s : string) :
  starts_with_space (lstrip s) = false
  /\ exists pre, s = pre +:+ lstrip s /\ all_space pre = true.
Proof.
  induction s as [|a s [IH1 [pre [IH2 IH3]]]]; simpl.
  - split; [reflexivity|]. now exists EmptyString.
  - destruct (is_space a) eqn:Ha.
    + split; [exact IH1|]. exists (String a pre). split.
      * rewrite append_cons. now f_equal.
      * simpl. now rewrite Ha.
    + split; [simpl; exact Ha|]. now exists EmptyString.
Qed.

Lemma rstrip_spec (s : string) :
  ends_with_space (rstrip s) = false
  /\ exists post, s = rstrip s +:+ post /\ all_space post = true.
Proof.
  induction s as [|a s [IH1 [post [IH2 IH3]]]]; simpl.
  - split; [reflexivity|]. now exists EmptyString.
  - destruct (rstrip s) as [|b r] eqn:Hr.
    + destruct (is_space a) eqn:Ha.
      * split; [reflexivity|]. exists (String a s). split; [reflexivity|].
        simpl. rewrite Ha. simpl. now rewrite IH2.
      * split; [simpl; exact Ha|]. exists post. split; [|exact IH3].
        rewrite append_cons. f_equal. exact IH2.
    + split; [exact IH1|]. exists post. split; [|exact IH3].
      rewrite append_cons. f_equal. exact IH2.
Qed.

Lemma rstrip_keeps_start (s : string) :
  starts_with_space s = false -> starts_with_space (rstrip s) = false.
Proof.
  destruct s as [|a s]; simpl; [reflexivity|]. intros Ha.
  destruct (rstrip s); [rewrite Ha|]; simpl; auto.
Qed.

(** [strip] removes whitespace from both ends and nothing else. *)
Lemma py_strip_spec (x : string) : is_trim_of x (py_strip x).
Proof.
  unfold is_trim_of, py_strip.
  destruct (lstrip_spec x) as [Hl [pre [Hx Hpre]]].
  destruct (rstrip_spec (lstrip x)) as [Hr [post [Hy Hpost]]].
  split; [now apply rstrip_keeps_start|]. split; [exact Hr|].
  exists pre, post. split; [|now split].
  rewrite <- Hy. exact Hx.
Qed.

(** ** Array parameters *)

(** C8, as stated, fails for a scalar that is not a str: the number 5 is
    not wrapped as it is, the list holds its text. *)
Lemma array_of_number_is_stringified :
  convert "array" (VInt 5) = Ok (VList [VStr "5"])
  /\ convert "array" (VInt 5) <> Ok (VList [VInt 5]).
Proof. split; [reflexivity|discriminate]. Qed.

(** C8, amended.  In the complete mapper, for a parameter of declared type
    array: a value that is already a list is kept as it is; a str with a
    comma is split at its commas and every segment is trimmed of
    surrounding whitespace; a str without a comma is wrapped, unchanged, in
    a one-element list; any other value is turned into its text by [str]
    and that text is wrapped in a one-element list.  The draft mapper is
    different: it keeps a list as it is and wraps every other value, as it
    is, in a one-element list, splitting nothing and turning nothing into
    text. *)
Theorem array_coercion (v : value) :
  match v with
  | VList l => convert "array" v = Ok (VList l)
  | VStr s =>
      if has_comma s then
        exists segments,
          convert "array" v = Ok (VList (map (fun x => VStr (py_strip x)) segments))
          /\ join "," segments = s
          /\ Forall (fun x => has_comma x = false) segments
          /\ Forall (fun x => is_trim_of x (py_strip x)) segments
      else convert "array" v = Ok (VList [VStr s])
  | _ => convert "array" v = Ok (VList [VStr (py_str v)])
  end
  /\ Draft.convert "array" v
     = Ok (match v with VList _ => v | _ => VList [v] end).
Proof.
  split; [|destruct v; reflexivity].
  destruct v as [| b | n | s | l | d]; try reflexivity.
  destruct (has_comma s) eqn:Hs.
  - exists (split_comma s). unfold convert. simpl. rewrite Hs.
    split; [reflexivity|]. split; [apply join_split_comma_go|].
    split; [now apply split_comma_go_segments|].
    apply Forall_forall. intros x _. apply py_strip_spec.
  - unfold convert. simpl. now rewrite Hs.
Qed.

Example array_coercion_samples :
  map (convert "array")
      [ VStr "s3,ebs,rds"; VStr "s3"; VStr " s3 , ebs,"; VList [VStr "a"; VInt 1];
        VInt 5; VBool true ]
  = map (fun l => Ok (VList l))
      [ [VStr "s3"; VStr "ebs"; VStr "rds"]; [VStr "s3"];
        [VStr "s3"; VStr "ebs"; VStr EmptyString]; [VStr "a"; VInt 1];
        [VStr "5"]; [VStr "True"] ].
Proof. reflexivity. Qed.

(** The draft mapper wraps whatever is not a list as it is and splits
    nothing. *)
Remark draft_array_coercion :
  Draft.convert "array" (VStr "s3,ebs,rds") = Ok (VList [VStr "s3,ebs,rds"])
  /\ Draft.convert "array" (VInt 5) = Ok (VList [VInt 5]).
Proof. split; reflexivity. Qed.

(** An array parameter sent as a number, through the whole call. *)
Example array_of_number_through_call :
  outcome (map_parameters "getStoredContext" [param "region" (VInt 5)])
  = Ok ("SecurityMCPTools___GetStoredSecurityContext",
        list_to_map [ ("region", VStr "5"); ("detailed", VBool false) ])
  /\ outcome (map_parameters "checkNetworkSecurity" [param "service" (VInt 5)])
     = Ok ("SecurityMCPTools___CheckNetworkSecurity",
           list_to_map
             [ ("region", VStr "us-east-1");
               ("services", VList [VStr "5"]);
               ("include_non_compliant_only", VBool false);
               ("aws_profile", VStr "default");
               ("store_in_context", VBool true) ]).
Proof. split; vm_compute; reflexivity. Qed.

(** ** The test cases of complete-parameter-mapper.py *)

Example test_check_security_services_all_params :
  map_parameters "checkSecurityStatus"
    [ param "region" (VStr "us-east-1");
      param "service" (VStr "guardduty");
      param "debug" (VStr "true") ]
  = Run []
      (Ok ("SecurityMCPTools___CheckSecurityServices",
           list_to_map
             [ ("region", VStr "us-east-1");
               ("services", VList [VStr "guardduty"]);
               ("aws_profile", VStr "default");
               ("store_in_context", VBool true);
               ("debug", VBool true) ])).
Proof. vm_compute. reflexivity. Qed.

Example test_check_security_services_defaults :
  map_parameters "checkSecurityStatus" []
  = Run []
      (Ok ("SecurityMCPTools___CheckSecurityServices",
           list_to_map
             [ ("region", VStr "us-east-1");
               ("services",
                VList [VStr "guardduty"; VStr "inspector"; VStr "accessanalyzer";
                       VStr "securityhub"; VStr "trustedadvisor"; VStr "macie"]);
               ("aws_profile", VStr "default");
               ("store_in_context", VBool true);
               ("debug", VBool true) ])).
Proof. vm_compute. reflexivity. Qed.

Example test_check_storage_multiple_services :
  map_parameters "checkStorageEncryption"
    [ param "region" (VStr "eu-west-1");
      param "services" (VStr "s3,ebs,rds");
      param "unencryptedOnly" (VStr "true") ]
  = Run []
      (Ok ("SecurityMCPTools___CheckStorageEncryption",
           list_to_map
             [ ("region", VStr "eu-west-1");
               ("services", VList [VStr "s3"; VStr "ebs"; VStr "rds"]);
               ("include_unencrypted_only", VBool true);
               ("aws_profile", VStr "default");
               ("store_in_context", VBool true) ])).
Proof. vm_compute. reflexivity. Qed.

Example test_check_network_non_compliant_only :
  map_parameters "checkNetworkSecurity"
    [ param "region" (VStr "ap-southeast-1");
      param "nonCompliantOnly" (VStr "true") ]
  = Run []
      (Ok ("SecurityMCPTools___CheckNetworkSecurity",
           list_to_map
             [ ("region", VStr "ap-southeast-1");
               ("services",
                VList [VStr "elb"; VStr "vpc"; VStr "apigateway"; VStr "cloudfront"]);
               ("include_non_compliant_only", VBool true);
               ("aws_profile", VStr "default");
               ("store_in_context", VBool true) ])).
Proof. vm_compute. reflexivity. Qed.

(** The two spellings of an alias give the same arguments. *)
Example alias_collapse :
  outcome (map_parameters "checkSecurityStatus" [param "service" (VStr "ec2")])
  = outcome (map_parameters "checkSecurityStatus" [param "services" (VStr "ec2")]).
Proof. vm_compute. reflexivity. Qed.

(** The text of the error for an unknown operation. *)
Example unknown_operation_message :
  error_message (UnknownOperation "bogusOperation")
  = Some ("Unknown operation: bogusOperation. Valid operations: "
          +:+ "['checkSecurityStatus', 'getSecurityFindings', "
          +:+ "'checkStorageEncryption', 'checkNetworkSecurity', "
          +:+ "'listServicesInRegion', 'getStoredContext']").
Proof. reflexivity. Qed.

(** ** The examples of validate-action-group-response.py *)

Example validator_valid_example (json_loads_ok : string -> bool) :
  Validator.validate_response json_loads_ok
    (VDict
       [ ("messageVersion", VStr "1.0");
         ("response",
          VDict
            [ ("actionGroup", VStr "SecurityActions");
              ("apiPath", VStr "/check-security-status");
              ("httpMethod", VStr "POST");
              ("httpStatusCode", VInt 200);
              ("responseBody",
               VDict
                 [ ("application/json",
                    VDict
                      [ ("body",
                         VStr (json_dumps
                                 (VDict [ ("status", VStr "success");
                                          ("findings", VList []) ]))) ]) ]) ]) ])
  = Ok (if json_loads_ok
             (json_dumps (VDict [ ("status", VStr "success");
                                  ("findings", VList []) ]))
        then [] else [Validator.BodyNotValidJson]).
Proof. vm_compute. now destruct (json_loads_ok _). Qed.

Example validator_body_is_dict (json_loads_ok : string -> bool) :
  Validator.validate_response json_loads_ok
    (VDict
       [ ("messageVersion", VStr "1.0");
         ("response",
          VDict
            [ ("actionGroup", VStr "test");
              ("apiPath", VStr "/test");
              ("httpMethod", VStr "POST");
              ("httpStatusCode", VInt 200);
              ("responseBody",
               VDict
                 [ ("application/json",
                    VDict [ ("body", VDict [("status", VStr "success")]) ]) ]) ]) ])
  = Ok [ Validator.BodyNotString (VDict [("status", VStr "success")]);
         Validator.BodyFixHint ].
Proof. reflexivity. Qed.

Example validator_missing_message_version (json_loads_ok : string -> bool) :
  Validator.validate_response json_loads_ok
    (VDict
       [ ("response",
          VDict
            [ ("actionGroup", VStr "test");
              ("apiPath", VStr "/test");
              ("httpMethod", VStr "POST");
              ("httpStatusCode", VInt 200);
              ("responseBody",
               VDict [ ("application/json", VDict [ ("body", VStr "{}") ]) ]) ]) ])
  = Ok ([Validator.MissingMessageVersion]
        ++ (if json_loads_ok "{}" then [] else [Validator.BodyNotValidJson]))%list.
Proof. vm_compute. now destruct (json_loads_ok _). Qed.

Example validator_missing_response_body (json_loads_ok : string -> bool) :
  Validator.validate_response json_loads_ok
    (VDict
       [ ("messageVersion", VStr "1.0");
         ("response",
          VDict
            [ ("actionGroup", VStr "test");
              ("apiPath", VStr "/test");
              ("httpMethod", VStr "POST");
              ("httpStatusCode", VInt 200) ]) ])
  = Ok [Validator.MissingResponseField "responseBody"].
Proof. reflexivity. Qed.
